(** * Near-Earth objects and their close approaches: the data model of models.py

    A shallow embedding of the two classes of [models.py], [NearEarthObject]
    and [CloseApproach], together with the part of the Python runtime their
    constructors and accessors rely on: truthiness, [str], [float], [==]
    against a [str] literal, and insertion-ordered dictionaries. *)

From Stdlib Require Import ZArith String Ascii List Bool Lia.
From Stdlib Require Import Floats.SpecFloat DecimalString.
From ExtLib Require Import Structures.Monad Structures.MonadState.
From ExtLib Require Import Data.Monads.StateMonad Data.Monads.EitherMonad.
From ExtLib Require Import Data.Monads.OptionMonad.
Import ListNotations.
Import MonadNotation.
Local Open Scope string_scope.
Local Open Scope Z_scope.
Local Open Scope monad_scope.

(** ** Python values *)

(** Exceptions the modelled code can raise. *)
Inductive exn : Type :=
| TypeError
| ValueError
| OverflowError.

(** Python's [float] is IEEE 754 binary64. *)
Definition float : Type := spec_float.

Definition prec : Z := 53.
Definition emax : Z := 1024.

Definition nan : float := S754_nan.
Definition zero : float := S754_zero false.
Definition one : float := SFone prec emax.

(** The scalar values a raw catalogue record can hold. *)
Inductive pyval : Type :=
| PNone
| PBool (b : bool)
| PInt (z : Z)
| PFloat (f : float)
| PStr (s : string).

(** A computation that either raises or returns. *)
Definition result : Type -> Type := sum exn.

Definition raise {A : Type} (e : exn) : result A := inl e.

(** An argument of a call: [None] when the caller did not pass it. *)
Definition arg : Type := option pyval.

(** A parameter without a default value: the call raises [TypeError] when it is
    missing. *)
Definition required (a : arg) : result pyval :=
  match a with
  | Some v => ret v
  | None => raise TypeError
  end.

(** A parameter with a default value. *)
Definition defaulted (d : pyval) (a : arg) : pyval :=
  match a with
  | Some v => v
  | None => d
  end.

(** ** Text *)

Definition is_digit (c : ascii) : bool :=
  let n := nat_of_ascii c in (48 <=? n)%nat && (n <=? 57)%nat.

(** The white space [float] strips from both ends of a text: tab to carriage
    return and the space, and of the code points from 128 to 255 the next-line
    control and the no-break space. *)
Definition is_space (c : ascii) : bool :=
  let n := nat_of_ascii c in
  ((9 <=? n)%nat && (n <=? 13)%nat) || (n =? 32)%nat ||
  (n =? 133)%nat || (n =? 160)%nat.

Definition to_lower (c : ascii) : ascii :=
  let n := nat_of_ascii c in
  if (65 <=? n)%nat && (n <=? 90)%nat then ascii_of_nat (n + 32) else c.

Definition digit_value (c : ascii) : Z := Z.of_nat (nat_of_ascii c) - 48.

Definition digits_value (ds : list ascii) : Z :=
  fold_left (fun acc c => 10 * acc + digit_value c) ds 0.

Fixpoint span_digits (l : list ascii) : list ascii * list ascii :=
  match l with
  | c :: l' =>
      if is_digit c then let '(ds, rest) := span_digits l' in (c :: ds, rest)
      else ([], l)
  | [] => ([], [])
  end.

Fixpoint lstrip (l : list ascii) : list ascii :=
  match l with
  | c :: l' => if is_space c then lstrip l' else l
  | [] => []
  end.

Definition strip (l : list ascii) : list ascii :=
  rev (lstrip (rev (lstrip l))).

(** The text [str(z)] returns for an [int]: the decimal digits, with a minus
    sign when negative. Whether [str] returns at all is [str_returns] below. *)
Definition str_of_int (z : Z) : string :=
  NilZero.string_of_int (Z.to_int z).

(** ** Conversion of text to [float] *)

(** The binary64 value nearest to [(-1)^s * m * 10^e], ties to even. *)
Definition float_of_decimal (s : bool) (m : Z) (e : Z) : float :=
  match m with
  | Zpos p =>
      if 0 <=? e
      then binary_normalize prec emax (cond_Zopp s (m * 10 ^ e)) 0 s
      else SFdiv prec emax (S754_finite s p 0)
                           (S754_finite false (Z.to_pos (10 ^ (- e))) 0)
  | _ => S754_zero s
  end.

(** Underscores may only stand between two digits; they are dropped. *)
Fixpoint drop_underscores (prev : ascii) (l : list ascii) : option (list ascii) :=
  match l with
  | [] => if Ascii.eqb prev "_" then None else Some []
  | c :: l' =>
      if Ascii.eqb c "_"
      then if is_digit prev then drop_underscores c l' else None
      else if Ascii.eqb prev "_" && negb (is_digit c) then None
           else option_map (cons c) (drop_underscores c l')
  end.

Definition take_sign (l : list ascii) : bool * list ascii :=
  match l with
  | "-"%char :: l' => (true, l')
  | "+"%char :: l' => (false, l')
  | _ => (false, l)
  end.

(** The exponent part [e[+-]digits]; nothing is consumed when no digit follows. *)
Definition take_exponent (l : list ascii) : Z * list ascii :=
  match l with
  | c :: l' =>
      if Ascii.eqb (to_lower c) "e"
      then let '(s, l'') := take_sign l' in
           match span_digits l'' with
           | ([], _) => (0, l)
           | (ds, rest) => (cond_Zopp s (digits_value ds), rest)
           end
      else (0, l)
  | [] => (0, l)
  end.

(** A decimal literal: digits with an optional fraction and exponent. *)
Definition parse_number (s : bool) (l : list ascii) : option float :=
  let '(ip, l1) := span_digits l in
  let '(fp, l2) :=
    match l1 with
    | "."%char :: l1' => span_digits l1'
    | _ => ([], l1)
    end in
  match (ip ++ fp)%list with
  | [] => None
  | ds =>
      match take_exponent l2 with
      | (e, []) =>
          Some (float_of_decimal s (digits_value ds) (e - Z.of_nat (length fp)))
      | _ => None
      end
  end.

Definition parse_inf_or_nan (s : bool) (l : list ascii) : option float :=
  let w := string_of_list_ascii (map to_lower l) in
  if String.eqb w "inf" || String.eqb w "infinity" then Some (S754_infinity s)
  else if String.eqb w "nan" then Some nan
  else None.

(** [float(s)] for a [str]: [None] stands for [ValueError]. *)
Definition float_of_str (s : string) : option float :=
  match drop_underscores "000"%char (strip (list_ascii_of_string s)) with
  | None => None
  | Some l =>
      let '(sg, l') := take_sign l in
      match parse_number sg l' with
      | Some f => Some f
      | None => parse_inf_or_nan sg l'
      end
  end.

(** ** Conversion of [float] to text *)

(** Number of decimal digits of a positive integer. *)
Definition digits10 (n : Z) : Z :=
  Z.of_nat (String.length (str_of_int n)).

(** [x = num / den] with [num] and [den] positive. *)
Definition ratio_of_finite (m : positive) (e : Z) : Z * Z :=
  if 0 <=? e then (Zpos m * 2 ^ e, 1) else (Zpos m, 2 ^ (- e)).

(** The decimal exponent [k] of [num / den]: [10^(k-1) <= num/den < 10^k]. *)
Definition decimal_exponent (num den : Z) : Z :=
  if den <=? num then digits10 (num / den)
  else
    let dq := digits10 (den / num) in
    if den <=? num * 10 ^ (dq - 1) then 1 - (dq - 1) else 1 - dq.

(** [num / den * 10^p] as a quotient and the two integers that surround it. *)
Definition scaled (num den p : Z) : Z * Z * Z :=
  let '(n, d) := if 0 <=? p then (num * 10 ^ p, den) else (num, den * 10 ^ (- p)) in
  (n / d, n mod d, d).

(** The [n]-digit decimal [c * 10^(k-n)] that reads back as [x] and lies nearest
    to it, if there is one. *)
Definition shortest_at (x : float) (num den k n : Z) : option Z :=
  let '(lo, r, d) := scaled num den (n - k) in
  let back c := match SFcompare x (float_of_decimal false c (k - n)) with
                | Some Eq => true
                | _ => false
                end in
  match back lo, back (lo + 1) with
  | true, true =>
      match 2 * r ?= d with
      | Lt => Some lo
      | Gt => Some (lo + 1)
      | Eq => Some (if Z.even lo then lo else lo + 1)
      end
  | true, false => Some lo
  | false, true => Some (lo + 1)
  | false, false => None
  end.

(** The shortest digit string that reads back as [x], tried from [n] digits on
    for [fuel] lengths; seventeen digits always suffice for binary64. *)
Fixpoint shortest_digits (fuel : nat) (x : float) (num den k n : Z) : Z * Z :=
  match fuel with
  | O => (fst (fst (scaled num den (n - k))), k - n)
  | S fuel' =>
      match shortest_at x num den k n with
      | Some c => (c, k - n)
      | None => shortest_digits fuel' x num den k (n + 1)
      end
  end.

Fixpoint strip_zeros_rev (l : list ascii) : list ascii :=
  match l with
  | "0"%char :: l' => strip_zeros_rev l'
  | _ => l
  end.

Definition zeros (n : Z) : string :=
  string_of_list_ascii (repeat "0"%char (Z.to_nat n)).

(** The exponent of the scientific form: a sign and at least two digits. *)
Definition exponent_text (e : Z) : string :=
  let a := str_of_int (Z.abs e) in
  (if e <? 0 then "-" else "+") ++ (if Z.abs e <? 10 then "0" ++ a else a).

(** Lay out the digits [c :: tl] whose decimal point stands after [decpt] of
    them, the way [repr] does: scientific form from [1e16] on and below [1e-4]. *)
Definition layout (c : ascii) (tl : list ascii) (decpt : Z) : string :=
  let len := Z.of_nat (length (c :: tl)) in
  if (decpt <=? -4) || (16 <? decpt) then
    match tl with
    | [] => String c ("e" ++ exponent_text (decpt - 1))
    | _ => String c ("." ++ string_of_list_ascii tl ++ "e" ++ exponent_text (decpt - 1))
    end
  else if decpt <=? 0 then
    "0." ++ zeros (- decpt) ++ string_of_list_ascii (c :: tl)
  else if len <=? decpt then
    string_of_list_ascii (c :: tl) ++ zeros (decpt - len) ++ ".0"
  else
    String c (string_of_list_ascii (firstn (Z.to_nat (decpt - 1)) tl) ++ "." ++
              string_of_list_ascii (skipn (Z.to_nat (decpt - 1)) tl)).

(** [repr(x)], which is also [str(x)], for a [float]. *)
Definition float_repr (x : float) : string :=
  match x with
  | S754_nan => "nan"
  | S754_infinity s => if s then "-inf" else "inf"
  | S754_zero s => if s then "-0.0" else "0.0"
  | S754_finite s m e =>
      let '(num, den) := ratio_of_finite m e in
      let k := decimal_exponent num den in
      let '(c, p) := shortest_digits 17 (S754_finite false m e) num den k 1 in
      let ds := list_ascii_of_string (str_of_int c) in
      (if s then "-" else "") ++
      match rev (strip_zeros_rev (rev ds)) with
      | c :: tl => layout c tl (Z.of_nat (length ds) + p)
      | [] => "0.0"
      end
  end.

(** ** Truthiness, [str], [float] and [==] *)

(** [bool(v)]: [None], [False], zero and the empty string are falsy; a NaN is
    truthy. *)
Definition truthy (v : pyval) : bool :=
  match v with
  | PNone => false
  | PBool b => b
  | PInt z => negb (z =? 0)
  | PFloat (S754_zero _) => false
  | PFloat _ => true
  | PStr s => negb (String.eqb s "")
  end.

(** [str(v)]. *)
Definition py_str (v : pyval) : string :=
  match v with
  | PNone => "None"
  | PBool b => if b then "True" else "False"
  | PInt z => str_of_int z
  | PFloat f => float_repr f
  | PStr s => s
  end.

(** The interpreter's default limit on the number of digits of an [int] that
    [str] converts. *)
Definition max_str_digits : Z := 4300.

(** Whether [str(v)] returns, with [py_str v] as its value, rather than raising
    [ValueError]: it does for every value but an [int] of more digits than the
    limit. *)
Definition str_returns (v : pyval) : bool :=
  match v with
  | PInt z => digits10 (Z.abs z) <=? max_str_digits
  | _ => true
  end.

(** [format(v, '')], what a replacement field [{...}] without a format
    specification renders: for these values it is [str(v)]. *)
Definition py_format (v : pyval) : string := py_str v.

(** [float(z)] for an [int]: the nearest binary64, or [OverflowError]. *)
Definition float_of_int (z : Z) : result float :=
  match binary_normalize prec emax z 0 false with
  | S754_infinity _ => raise OverflowError
  | f => ret f
  end.

(** [float(v)]. *)
Definition py_float (v : pyval) : result float :=
  match v with
  | PNone => raise TypeError
  | PBool b => ret (if b then one else zero)
  | PInt z => float_of_int z
  | PFloat f => ret f
  | PStr s =>
      match float_of_str s with
      | Some f => ret f
      | None => raise ValueError
      end
  end.

(** [v == s] for a [str] literal [s]: only an equal [str] compares equal. *)
Definition py_eq_str (v : pyval) (s : string) : bool :=
  match v with
  | PStr t => String.eqb t s
  | _ => false
  end.

(** [v is None]. *)
Definition is_none (v : pyval) : bool :=
  match v with
  | PNone => true
  | _ => false
  end.

(** ** Fixed-point text of a [float] *)

(** The integer nearest to [num / den * 10^p], ties to even. *)
Definition round_scaled (num den p : Z) : Z :=
  let '(q, r, d) := scaled num den p in
  match 2 * r ?= d with
  | Lt => q
  | Gt => q + 1
  | Eq => if Z.even q then q else q + 1
  end.

(** The digits of [n] with the decimal point before the last [p] of them. *)
Definition fixed_digits (p : nat) (n : Z) : string :=
  let t := list_ascii_of_string (str_of_int n) in
  let t := (repeat "0"%char (S p - length t) ++ t)%list in
  let k := (length t - p)%nat in
  string_of_list_ascii (firstn k t) ++
  (if (0 <? p)%nat then "." ++ string_of_list_ascii (skipn k t) else "").

(** [format(x, '.pf')] for a [float]. *)
Definition format_fixed (p : nat) (x : float) : string :=
  match x with
  | S754_nan => "nan"
  | S754_infinity s => if s then "-inf" else "inf"
  | S754_zero s => (if s then "-" else "") ++ fixed_digits p 0
  | S754_finite s m e =>
      let '(num, den) := ratio_of_finite m e in
      (if s then "-" else "") ++ fixed_digits p (round_scaled num den (Z.of_nat p))
  end.

(** [format(v, '.pf')]: numbers are converted with [float]; text has no such
    format code and [None] no format at all. *)
Definition py_format_fixed (p : nat) (v : pyval) : result string :=
  match v with
  | PNone => raise TypeError
  | PStr _ => raise ValueError
  | _ => f <- py_float v ;; ret (format_fixed p f)
  end.

(** ** [repr] *)

Definition hex_digit (n : nat) : ascii :=
  if (n <? 10)%nat then ascii_of_nat (48 + n) else ascii_of_nat (87 + n).

(** Printable characters of the first 256 code points. *)
Definition is_printable (c : ascii) : bool :=
  let n := nat_of_ascii c in
  ((32 <=? n)%nat && (n <=? 126)%nat) ||
  ((161 <=? n)%nat && negb (n =? 173)%nat).

Definition escape_char (quote : ascii) (c : ascii) : string :=
  if Ascii.eqb c quote || Ascii.eqb c "092" then String "092" (String c "")
  else if Ascii.eqb c "009" then String "092" "t"
  else if Ascii.eqb c "010" then String "092" "n"
  else if Ascii.eqb c "013" then String "092" "r"
  else if is_printable c then String c ""
  else let n := nat_of_ascii c in
       String "092" (String "x" (String (hex_digit (n / 16)) (String (hex_digit (n mod 16)) ""))).

Fixpoint escape (quote : ascii) (s : string) : string :=
  match s with
  | EmptyString => ""
  | String c s' => escape_char quote c ++ escape quote s'
  end.

Fixpoint contains (c : ascii) (s : string) : bool :=
  match s with
  | EmptyString => false
  | String x s' => Ascii.eqb x c || contains c s'
  end.

(** [repr(s)] for a [str]: single quotes, unless the text has a single quote
    and no double quote. *)
Definition repr_str (s : string) : string :=
  let quote := if contains "'" s && negb (contains "034" s) then "034"%char else "'"%char in
  String quote (escape quote s ++ String quote "").

Definition py_repr (v : pyval) : string :=
  match v with
  | PStr s => repr_str s
  | _ => py_str v
  end.

(** ** Dictionaries *)

(** A [dict] keeps its keys in insertion order. *)
Definition dict : Type := list (string * pyval).

Definition dict_new : dict := [].

(** [d[k] = v]: an existing key keeps its place, a new key goes last. *)
Fixpoint setitem (d : dict) (k : string) (v : pyval) : dict :=
  match d with
  | [] => [(k, v)]
  | (k', v') :: d' =>
      if String.eqb k' k then (k', v) :: d' else (k', v') :: setitem d' k v
  end.

Definition keys (d : dict) : list string := map fst d.

Fixpoint getitem (d : dict) (k : string) : option pyval :=
  match d with
  | [] => None
  | (k', v) :: d' => if String.eqb k' k then Some v else getitem d' k
  end.

(** The identity of an object that lives in the interpreter's heap. *)
Definition ref : Type := nat.

(** ** The helpers module *)

(** [models.py] imports [cd_to_datetime] and [datetime_to_str] from [helpers];
    the model is parametric in them and in the timestamp type. *)
Class Helpers : Type := {
  datetime : Type;
  cd_to_datetime : pyval -> result datetime;
  datetime_to_str : datetime -> string
}.

(** ** class NearEarthObject *)

Module NearEarthObject.

Record t : Type := {
  designation : pyval;
  name : pyval;
  diameter : pyval;
  hazardous : pyval;
  approaches : list ref
}.

(** [__init__(self, designation, name=None, diameter=float('nan'),
    hazardous=False)]. *)
Definition init (designation name diameter hazardous : arg) : result t :=
  designation <- required designation ;;
  let name := defaulted PNone name in
  let diameter := defaulted (PFloat nan) diameter in
  let hazardous := defaulted (PBool false) hazardous in
  let self_designation := PStr (py_str designation) in
  let self_name := if truthy name then PStr (py_str name) else PNone in
  self_diameter <- (if truthy diameter then py_float diameter else ret nan) ;;
  let self_hazardous := if py_eq_str hazardous "Y" then PBool true else PBool false in
  ret {| designation := self_designation;
         name := self_name;
         diameter := PFloat self_diameter;
         hazardous := self_hazardous;
         approaches := [] |}.

(** The property [fullname]: [f'{self.designation} {self.name}']. *)
Definition fullname : state t string :=
  self <- get ;;
  ret (py_format (designation self) ++ " " ++ py_format (name self)).

Definition serialize : state t dict :=
  self <- get ;;
  let neo_dict := dict_new in
  let neo_dict :=
    if is_none (name self) then setitem neo_dict "name" (PStr "")
    else setitem neo_dict "name" (PStr (py_format (name self))) in
  let neo_dict := setitem neo_dict "designation" (PStr (py_format (designation self))) in
  let neo_dict := setitem neo_dict "diameter_km" (diameter self) in
  let neo_dict := setitem neo_dict "potentially_hazardous" (hazardous self) in
  ret neo_dict.

(** [__str__]: the full name, the diameter to three decimals and the flag. *)
Definition __str__ (self : t) : result string :=
  let full := evalState fullname self in
  diameter_text <- py_format_fixed 3 (diameter self) ;;
  ret ("A NearEarthObject " ++ full ++ " has a diameter of " ++
       diameter_text ++ " km and is potentially " ++
       "hazardous = " ++ py_format (hazardous self)).

(** [__repr__]. *)
Definition __repr__ (self : t) : result string :=
  diameter_text <- py_format_fixed 3 (diameter self) ;;
  ret ("NearEarthObject(designation=" ++ py_repr (designation self) ++ "," ++
       "name=" ++ py_repr (name self) ++ ", " ++
       "diameter=" ++ diameter_text ++
       ", hazardous=" ++ py_repr (hazardous self) ++ ")").

End NearEarthObject.

(** ** class CloseApproach *)

Module CloseApproach.

Record t `{Helpers} : Type := {
  _designation : pyval;
  time : datetime;
  distance : pyval;
  velocity : pyval;
  neo : option ref
}.

(** [__init__(self, time, distance=float('nan'), velocity=float('nan'),
    neo=None, designation=None)]; [neo] is [None] or a reference to a
    [NearEarthObject]. *)
Definition init `{Helpers} (time distance velocity : arg) (neo : option ref)
    (designation : arg) : result t :=
  time <- required time ;;
  let distance := defaulted (PFloat nan) distance in
  let velocity := defaulted (PFloat nan) velocity in
  let designation := defaulted PNone designation in
  let self__designation :=
    if truthy designation then PStr (py_str designation) else PStr "" in
  self_time <- cd_to_datetime time ;;
  self_distance <- py_float distance ;;
  self_velocity <- py_float velocity ;;
  ret {| _designation := self__designation;
         time := self_time;
         distance := PFloat self_distance;
         velocity := PFloat self_velocity;
         neo := neo |}.

(** [self.neo = r], the assignment the linking step makes. *)
Definition set_neo `{Helpers} (r : option ref) (self : t) : t :=
  {| _designation := _designation self;
     time := time self;
     distance := distance self;
     velocity := velocity self;
     neo := r |}.

(** The property [time_str]. *)
Definition time_str `{Helpers} : state t string :=
  self <- get ;;
  ret (datetime_to_str (time self)).

Definition serialize `{Helpers} : state t dict :=
  let approach_dict := dict_new in
  date_time <- time_str ;;
  let approach_dict :=
    setitem approach_dict "datetime_utc" (PStr (py_format (PStr date_time))) in
  self <- get ;;
  let approach_dict := setitem approach_dict "distance_au" (distance self) in
  let approach_dict := setitem approach_dict "velocity_km_s" (velocity self) in
  ret approach_dict.

(** [__str__]: the second and third pieces of the text are joined without a
    space. *)
Definition __str__ `{Helpers} (self : t) : result string :=
  let when := evalState time_str self in
  distance_text <- py_format_fixed 2 (distance self) ;;
  velocity_text <- py_format_fixed 2 (velocity self) ;;
  ret ("At " ++ when ++ ", '" ++ py_format (_designation self) ++ "' " ++
       "approaches Earth at a distance of " ++ distance_text ++ " au" ++
       "and a velocity of " ++ velocity_text ++ " km/s.").

(** [__repr__]: the middle piece of the text is a plain literal, not a
    template. The linked object, if any, is looked up in [heap]. *)
Definition __repr__ `{Helpers} (heap : ref -> NearEarthObject.t) (self : t) :
    result string :=
  let when := evalState time_str self in
  velocity_text <- py_format_fixed 2 (velocity self) ;;
  neo_text <- match neo self with
              | None => ret (py_repr PNone)
              | Some r => NearEarthObject.__repr__ (heap r)
              end ;;
  ret ("CloseApproach(time=" ++ repr_str when ++ ", " ++
       "distance={self.distance:.2f}, " ++
       "velocity=" ++ velocity_text ++ ", neo=" ++ neo_text ++ ")").

End CloseApproach.

(** ** A calendar for the helpers *)

(** Modelled from the spec: [helpers.py] is not among the sources. The spec
    gives its two contracts by example, the text ["1900-Dec-27 01:30"] read as
    a minute-precision timestamp and laid out as ["1900-12-27 01:30"]; this
    instance follows that example and serves to run the model on concrete
    records. *)
Module Calendar.

Record stamp : Type := {
  year : Z;
  month : Z;
  day : Z;
  hour : Z;
  minute : Z
}.

Definition month_names : list string :=
  ["jan"; "feb"; "mar"; "apr"; "may"; "jun";
   "jul"; "aug"; "sep"; "oct"; "nov"; "dec"].

Fixpoint index_from (i : Z) (w : string) (l : list string) : option Z :=
  match l with
  | [] => None
  | x :: l' => if String.eqb x w then Some i else index_from (i + 1) w l'
  end.

Definition expect (c : ascii) (l : list ascii) : option (list ascii) :=
  match l with
  | x :: l' => if Ascii.eqb x c then Some l' else None
  | [] => None
  end.

Definition number (lo hi : Z) (l : list ascii) : option (Z * list ascii) :=
  match span_digits l with
  | ([], _) => None
  | (ds, rest) =>
      let n := digits_value ds in
      if (lo <=? n) && (n <=? hi) then Some (n, rest) else None
  end.

Definition month_name (l : list ascii) : option (Z * list ascii) :=
  let w := string_of_list_ascii (map to_lower (firstn 3 l)) in
  m <- index_from 1 w month_names ;;
  ret (m, skipn 3 l).

Definition parse (l : list ascii) : option stamp :=
  '(y, l) <- number 1 9999 l ;;
  l <- expect "-" l ;;
  '(m, l) <- month_name l ;;
  l <- expect "-" l ;;
  '(d, l) <- number 1 31 l ;;
  l <- expect " " l ;;
  '(h, l) <- number 0 23 l ;;
  l <- expect ":" l ;;
  '(mi, l) <- number 0 59 l ;;
  match l with
  | [] => ret {| year := y; month := m; day := d; hour := h; minute := mi |}
  | _ => None
  end.

Definition pad (width : nat) (n : Z) : string :=
  let t := str_of_int n in
  string_of_list_ascii (repeat "0"%char (width - String.length t)) ++ t.

Definition show (d : stamp) : string :=
  pad 4 (year d) ++ "-" ++ pad 2 (month d) ++ "-" ++ pad 2 (day d) ++ " " ++
  pad 2 (hour d) ++ ":" ++ pad 2 (minute d).

End Calendar.

(** Modelled from the spec: the two helpers over the calendar above; a value
    that is not text is a [TypeError], text in another shape a [ValueError]. *)
Definition calendar_helpers : Helpers :=
  {| datetime := Calendar.stamp;
     cd_to_datetime v :=
       match v with
       | PStr s =>
           match Calendar.parse (list_ascii_of_string s) with
           | Some d => ret d
           | None => raise ValueError
           end
       | _ => raise TypeError
       end;
     datetime_to_str := Calendar.show |}.

(** The approach time of the spec's worked example. *)
Definition eros_time : Calendar.stamp :=
  {| Calendar.year := 1900; Calendar.month := 12; Calendar.day := 27;
     Calendar.hour := 1; Calendar.minute := 30 |}.

(** ** Zero measurements *)



(** * Properties *)

(** ** The runtime *)

Lemma truthy_str (s : string) : truthy (PStr s) = true <-> s <> "".
Proof.
  simpl. destruct (String.eqb_spec s ""); simpl; split; congruence.
Qed.

Lemma py_eq_str_spec (v : pyval) (s : string) :
  py_eq_str v s = true <-> v = PStr s.
Proof.
  destruct v; simpl; try (split; [discriminate | congruence]).
  rewrite String.eqb_eq. split; congruence.
Qed.

Lemma append_nonempty_r (a b : string) : b <> "" -> a ++ b <> "".
Proof.
  destruct a; simpl; [trivial | discriminate].
Qed.

Lemma str_of_int_nonempty (z : Z) : str_of_int z <> "".
Proof.
  unfold str_of_int, NilZero.string_of_int, NilZero.string_of_uint.
  destruct (Z.to_int z) as [u | u]; [destruct u | ]; discriminate.
Qed.

Lemma layout_nonempty (c : ascii) (tl : list ascii) (decpt : Z) :
  layout c tl decpt <> "".
Proof.
  unfold layout.
  destruct ((decpt <=? -4) || (16 <? decpt)).
  - destruct tl; discriminate.
  - destruct (decpt <=? 0); [discriminate | ].
    destruct (Z.of_nat (length (c :: tl)) <=? decpt); discriminate.
Qed.

Lemma float_repr_nonempty (x : float) : float_repr x <> "".
Proof.
  destruct x as [s | s | | s m e]; unfold float_repr.
  1, 2: destruct s; discriminate.
  1: discriminate.
  destruct (ratio_of_finite m e) as [num den].
  destruct (shortest_digits _ _ _ _ _ _) as [c p].
  apply append_nonempty_r.
  destruct (rev (strip_zeros_rev (rev (list_ascii_of_string (str_of_int c))))).
  - discriminate.
  - apply layout_nonempty.
Qed.

(** The text of a truthy value is never empty. *)
Lemma py_str_truthy_nonempty (v : pyval) : truthy v = true -> py_str v <> "".
Proof.
  destruct v as [ | b | z | f | s]; simpl; intros Hv.
  - discriminate.
  - subst b. discriminate.
  - apply str_of_int_nonempty.
  - apply float_repr_nonempty.
  - now apply truthy_str.
Qed.

(** The default [float('nan')] of the three optional measurements. *)
Example float_nan_literal : py_float (PStr "nan") = inr nan.
Proof. reflexivity. Qed.

Example float_zero_literal : py_float (PStr "0") = inr zero.
Proof. reflexivity. Qed.

Example float_of_str_samples :
  float_of_str " 1_0.5e-1 " = float_of_str "1.05" /\
  float_of_str "" = None /\
  float_of_str "1e" = None /\
  float_of_str "-Infinity" = Some (S754_infinity true).
Proof. vm_compute. repeat split. Qed.

Example float_repr_tenth : option_map float_repr (float_of_str "0.1") = Some "0.1".
Proof. vm_compute. reflexivity. Qed.

(** ** Dictionaries *)

Lemma getitem_setitem_same (d : dict) (k : string) (v : pyval) :
  getitem (setitem d k v) k = Some v.
Proof.
  induction d as [ | [k' v'] d IH]; simpl.
  - now rewrite String.eqb_refl.
  - destruct (String.eqb k' k) eqn:E; simpl; rewrite E; [reflexivity | exact IH].
Qed.

Lemma keys_setitem_present (d : dict) (k : string) (v : pyval) :
  In k (keys d) -> keys (setitem d k v) = keys d.
Proof.
  induction d as [ | [k' v'] d IH]; simpl; [tauto | ].
  intros [-> | Hin].
  - now rewrite String.eqb_refl.
  - destruct (String.eqb k' k); simpl; [reflexivity | now rewrite IH].
Qed.

(** ** The constructors *)

Import NearEarthObject.

(** What [NearEarthObject(...)] returns once a designation is passed. *)
Lemma neo_init_unfold (d : pyval) (n di h : arg) :
  NearEarthObject.init (Some d) n di h =
  match (let raw := defaulted (PFloat nan) di in
         if truthy raw then py_float raw else inr nan) with
  | inl e => inl e
  | inr f =>
      inr {| designation := PStr (py_str d);
             name := (let raw := defaulted PNone n in
                      if truthy raw then PStr (py_str raw) else PNone);
             diameter := PFloat f;
             hazardous := PBool (py_eq_str (defaulted (PBool false) h) "Y");
             approaches := [] |}
  end.
Proof.
  unfold NearEarthObject.init. simpl.
  destruct (truthy (defaulted (PFloat nan) di)); simpl.
  - destruct (py_float (defaulted (PFloat nan) di)); simpl; [reflexivity | ].
    now destruct (py_eq_str (defaulted (PBool false) h) "Y").
  - now destruct (py_eq_str (defaulted (PBool false) h) "Y").
Qed.

Lemma neo_init_missing_designation (n di h : arg) :
  NearEarthObject.init None n di h = inl TypeError.
Proof. reflexivity. Qed.

(** A successful construction was passed a designation and converted the
    diameter. *)
Lemma neo_init_inv (d n di h : arg) (o : NearEarthObject.t) :
  NearEarthObject.init d n di h = inr o ->
  exists v f,
    d = Some v /\
    (let raw := defaulted (PFloat nan) di in
     if truthy raw then py_float raw else inr nan) = inr f /\
    o = {| designation := PStr (py_str v);
           name := (let raw := defaulted PNone n in
                    if truthy raw then PStr (py_str raw) else PNone);
           diameter := PFloat f;
           hazardous := PBool (py_eq_str (defaulted (PBool false) h) "Y");
           approaches := [] |}.
Proof.
  destruct d as [v | ]; [ | discriminate].
  rewrite neo_init_unfold.
  destruct (let raw := defaulted (PFloat nan) di in
            if truthy raw then py_float raw else inr nan) as [e | f] eqn:E;
    [discriminate | ].
  intros [= <-]. now exists v, f.
Qed.

(** The constructor fixes the types of the attributes: the designation is a
    string, the name a string or null, the diameter a float, the flag a
    boolean, and no approach is linked yet. *)
Lemma neo_init_attribute_types (d n di h : arg) (o : NearEarthObject.t) :
  NearEarthObject.init d n di h = inr o ->
  (exists s, designation o = PStr s) /\
  (name o = PNone \/ exists s, name o = PStr s) /\
  (exists f, diameter o = PFloat f) /\
  (exists b, hazardous o = PBool b) /\
  approaches o = [].
Proof.
  intros Hinit.
  apply neo_init_inv in Hinit as (v & f & _ & _ & ->). simpl.
  split; [eauto | ].
  split; [destruct (truthy (defaulted PNone n)); eauto | ].
  split; [eauto | ].
  split; [eauto | reflexivity].
Qed.

(** What [CloseApproach(...)] returns once a time is passed. *)
Lemma approach_init_unfold `{Helpers} (t : pyval) (dist vel des : arg)
    (r : option ref) :
  CloseApproach.init (Some t) dist vel r des =
  match cd_to_datetime t with
  | inl e => inl e
  | inr dt =>
      match py_float (defaulted (PFloat nan) dist) with
      | inl e => inl e
      | inr fd =>
          match py_float (defaulted (PFloat nan) vel) with
          | inl e => inl e
          | inr fv =>
              inr {| CloseApproach._designation :=
                       (let raw := defaulted PNone des in
                        if truthy raw then PStr (py_str raw) else PStr "");
                     CloseApproach.time := dt;
                     CloseApproach.distance := PFloat fd;
                     CloseApproach.velocity := PFloat fv;
                     CloseApproach.neo := r |}
          end
      end
  end.
Proof.
  unfold CloseApproach.init. simpl.
  destruct (cd_to_datetime t); simpl; [reflexivity | ].
  destruct (py_float (defaulted (PFloat nan) dist)); simpl; [reflexivity | ].
  destruct (py_float (defaulted (PFloat nan) vel)); reflexivity.
Qed.

Lemma approach_init_inv `{Helpers} (t dist vel des : arg) (r : option ref)
    (a : CloseApproach.t) :
  CloseApproach.init t dist vel r des = inr a ->
  exists tv dt fd fv,
    t = Some tv /\ cd_to_datetime tv = inr dt /\
    py_float (defaulted (PFloat nan) dist) = inr fd /\
    py_float (defaulted (PFloat nan) vel) = inr fv /\
    CloseApproach.time a = dt /\
    CloseApproach.distance a = PFloat fd /\
    CloseApproach.velocity a = PFloat fv /\
    CloseApproach.neo a = r.
Proof.
  destruct t as [tv | ]; [ | discriminate].
  rewrite approach_init_unfold.
  destruct (cd_to_datetime tv) as [ | dt] eqn:Et; [discriminate | ].
  destruct (py_float (defaulted (PFloat nan) dist)) as [ | fd] eqn:Ed;
    [discriminate | ].
  destruct (py_float (defaulted (PFloat nan) vel)) as [ | fv] eqn:Ev;
    [discriminate | ].
  intros [= <-]. exists tv, dt, fd, fv. repeat split; assumption.
Qed.

(** ** fullname *)

(** With a name, [fullname] is the designation, one space, the name. *)
Lemma fullname_named (o : NearEarthObject.t) (d s : string) :
  designation o = PStr d -> name o = PStr s ->
  evalState fullname o = d ++ " " ++ s.
Proof.
  intros Hd Hn. unfold evalState, fullname. simpl. now rewrite Hd, Hn.
Qed.

Example fullname_eros :
  option_map (evalState fullname)
    (match NearEarthObject.init (Some (PStr "433")) (Some (PStr "Eros")) None None with
     | inr o => Some o
     | inl _ => None
     end) = Some "433 Eros".
Proof. reflexivity. Qed.

(** C1, as the code has it: for an object without a name the template of
    [fullname] renders the null name as the text [None]. The object built from
    the designation ["433"] alone has the full name ["433 None"], where the
    claim asks for ["433"]. *)
Theorem fullname_nameless_renders_None :
  exists o : NearEarthObject.t,
    NearEarthObject.init (Some (PStr "433")) None None None = inr o /\
    name o = PNone /\
    evalState fullname o = "433 None" /\
    evalState fullname o <> "433".
Proof.
  eexists. split; [reflexivity | ].
  split; [reflexivity | ].
  split; [reflexivity | discriminate].
Qed.

(** ** designation *)

(** C2, refuted as stated: the empty designation is accepted and stored as
    it is, so a constructed object can have an empty designation. *)
Lemma empty_designation_is_accepted :
  ~ (forall (d n di h : arg) (o : NearEarthObject.t),
        NearEarthObject.init d n di h = inr o ->
        designation o <> PStr "" /\ designation o <> PNone).
Proof.
  intros Hclaim.
  destruct (Hclaim (Some (PStr "")) None None None _ eq_refl) as [Hne _].
  now apply Hne.
Qed.

(** C2, amended: a call without a designation raises [TypeError]. A
    designation that is passed is never validated: it is stored as the text
    [str(designation)] of the raw value, hence as a string and never as null,
    and whenever [str] returns for the designation and the name and the
    diameter converts, the construction succeeds. In particular the raw empty
    string is accepted and gives the empty designation, and the raw [None] is
    accepted and gives the designation ["None"]. *)
Theorem designation_is_text_of_raw (d n di h : arg) (o : NearEarthObject.t)
    (v : pyval) (f : float) :
  NearEarthObject.init None n di h = inl TypeError /\
  (NearEarthObject.init d n di h = inr o ->
   exists w, d = Some w /\ designation o = PStr (py_str w) /\
             designation o <> PNone /\
             (w = PStr "" -> designation o = PStr "")) /\
  (str_returns (defaulted PNone n) = true ->
   (let raw := defaulted (PFloat nan) di in
    if truthy raw then py_float raw else inr nan) = inr f ->
   (str_returns v = true ->
    exists o', NearEarthObject.init (Some v) n di h = inr o' /\
               designation o' = PStr (py_str v)) /\
   (exists o', NearEarthObject.init (Some (PStr "")) n di h = inr o' /\
               designation o' = PStr "") /\
   (exists o', NearEarthObject.init (Some PNone) n di h = inr o' /\
               designation o' = PStr "None")).
Proof.
  split; [reflexivity | ]. split.
  - intros Hinit.
    apply neo_init_inv in Hinit as (w & f' & -> & _ & ->).
    exists w. simpl. repeat split; [discriminate | now intros ->].
  - intros _ Hf. cbv zeta in Hf.
    repeat split; [intros _ | | ];
      rewrite neo_init_unfold; cbv zeta; rewrite Hf;
      eexists; split; reflexivity.
Qed.

Lemma designation_is_text_of_raw_witness :
  (exists w, Some (PStr "") = Some w /\ PStr "" = PStr (py_str w) /\
             PStr "" <> PNone /\ (w = PStr "" -> PStr "" = PStr "")) /\
  (exists o', NearEarthObject.init (Some (PInt 433)) None None None = inr o' /\
              designation o' = PStr (py_str (PInt 433))) /\
  (exists o', NearEarthObject.init (Some (PStr "")) None None None = inr o' /\
              designation o' = PStr "") /\
  (exists o', NearEarthObject.init (Some PNone) None None None = inr o' /\
              designation o' = PStr "None").
Proof.
  pose proof (designation_is_text_of_raw (Some (PStr "")) None None None
                {| designation := PStr ""; name := PNone;
                   diameter := PFloat nan; hazardous := PBool false;
                   approaches := [] |}
                (PInt 433) nan) as (_ & Hstored & Haccepted).
  destruct (Haccepted eq_refl eq_refl) as (Hany & Hempty & Hnone).
  split; [exact (Hstored eq_refl) | ].
  split; [exact (Hany eq_refl) | ].
  split; [exact Hempty | exact Hnone].
Defined.

(** ** hazardous *)

(** C3: the stored flag is [True] exactly when the raw flag is the text ["Y"],
    and [False] for every other raw value and for an absent one. *)
Theorem hazardous_iff_Y (d n di h : arg) (o : NearEarthObject.t) :
  NearEarthObject.init d n di h = inr o ->
  (hazardous o = PBool true <-> h = Some (PStr "Y")) /\
  (hazardous o = PBool false <-> h <> Some (PStr "Y")).
Proof.
  intros Hinit.
  apply neo_init_inv in Hinit as (v & f & -> & _ & ->). simpl.
  destruct (py_eq_str (defaulted (PBool false) h) "Y") eqn:E.
  - apply py_eq_str_spec in E.
    destruct h as [hv | ]; simpl in E; [subst hv | discriminate].
    split; split; intros; congruence.
  - assert (Hne : h <> Some (PStr "Y")).
    { intros ->. simpl in E. discriminate. }
    split; split; intros; congruence.
Qed.

Lemma hazardous_iff_Y_witness :
  (PBool true = PBool true <-> Some (PStr "Y") = Some (PStr "Y")) /\
  (PBool true = PBool false <-> Some (PStr "Y") <> Some (PStr "Y")).
Proof.
  exact (hazardous_iff_Y (Some (PStr "433")) None None (Some (PStr "Y"))
           {| designation := PStr "433"; name := PNone;
              diameter := PFloat nan; hazardous := PBool true;
              approaches := [] |}
           eq_refl).
Defined.

(** The raw flags ["N"], [""] and [True] all give [False]. *)
Example hazardous_other_flags :
  forall h, In h [PStr "N"; PStr ""; PBool true; PStr "y"; PStr "Y "; PInt 1] ->
  exists o, NearEarthObject.init (Some (PStr "433")) None None (Some h) = inr o /\
            hazardous o = PBool false.
Proof.
  intros h Hin. simpl in Hin.
  repeat (destruct Hin as [<- | Hin]; [eexists; split; reflexivity | ]).
  contradiction.
Qed.

(** ** serialize of a NearEarthObject *)

(** C4: [serialize()] returns the four keys [name], [designation],
    [diameter_km], [potentially_hazardous] in this order and no other; the
    name is the empty string when the object has none and its text otherwise,
    the designation is a string, and the diameter and the flag are the stored
    values, a NaN diameter included. *)
Theorem neo_serialize_mapping (o : NearEarthObject.t) :
  let d := evalState NearEarthObject.serialize o in
  d = [("name", PStr (if is_none (name o) then "" else py_str (name o)));
       ("designation", PStr (py_str (designation o)));
       ("diameter_km", diameter o);
       ("potentially_hazardous", hazardous o)] /\
  keys d = ["name"; "designation"; "diameter_km"; "potentially_hazardous"] /\
  (name o = PNone -> getitem d "name" = Some (PStr "")) /\
  getitem d "name" <> Some PNone /\
  getitem d "diameter_km" = Some (diameter o) /\
  getitem d "potentially_hazardous" = Some (hazardous o).
Proof.
  assert (E : evalState NearEarthObject.serialize o =
              [("name", PStr (if is_none (name o) then "" else py_str (name o)));
               ("designation", PStr (py_str (designation o)));
               ("diameter_km", diameter o);
               ("potentially_hazardous", hazardous o)]).
  { unfold evalState, NearEarthObject.serialize. simpl.
    destruct (is_none (name o)); reflexivity. }
  cbv zeta. rewrite E. clear E.
  split; [reflexivity | ].
  split; [reflexivity | ].
  split; [intros ->; reflexivity | ].
  split; [simpl; discriminate | ].
  split; reflexivity.
Qed.

Lemma neo_serialize_mapping_witness :
  getitem
    (evalState NearEarthObject.serialize
       {| designation := PStr "433"; name := PNone; diameter := PFloat nan;
          hazardous := PBool false; approaches := [] |})
    "name" = Some (PStr "").
Proof.
  exact (proj1 (proj2 (proj2 (neo_serialize_mapping
           {| designation := PStr "433"; name := PNone; diameter := PFloat nan;
              hazardous := PBool false; approaches := [] |}))) eq_refl).
Defined.

(** The record of the spec's worked example. *)
Example neo_serialize_eros :
  option_map (evalState NearEarthObject.serialize)
    (match NearEarthObject.init (Some (PStr "433")) (Some (PStr "Eros"))
             (Some (PStr "16.84")) (Some (PStr "N")) with
     | inr o => Some o
     | inl _ => None
     end) =
  Some [("name", PStr "Eros"); ("designation", PStr "433");
        ("diameter_km", PFloat (S754_finite false 4740038607807447 (-48)));
        ("potentially_hazardous", PBool false)].
Proof. vm_compute. reflexivity. Qed.

(** ** diameter *)



(** ** name *)

(** C6: a truthy raw name is stored as its text; an absent or falsy one is
    stored as null. The stored name is never the empty string. *)
Theorem name_normalised (d n di h : arg) (o : NearEarthObject.t) :
  NearEarthObject.init d n di h = inr o ->
  (forall v, n = Some v -> truthy v = true -> name o = PStr (py_str v)) /\
  (forall v, n = Some v -> truthy v = false -> name o = PNone) /\
  (n = None -> name o = PNone) /\
  name o <> PStr "".
Proof.
  intros Hinit.
  apply neo_init_inv in Hinit as (dv & f & _ & _ & ->). simpl.
  repeat split.
  - intros v -> Hv. simpl. now rewrite Hv.
  - intros v -> Hv. simpl. now rewrite Hv.
  - intros ->. reflexivity.
  - destruct (truthy (defaulted PNone n)) eqn:Hv; [ | discriminate].
    intros [= Hempty]. now apply (py_str_truthy_nonempty _ Hv).
Qed.

Lemma name_normalised_witness :
  name {| designation := PStr "433"; name := PStr "Eros";
          diameter := PFloat nan; hazardous := PBool false;
          approaches := [] |} = PStr (py_str (PStr "Eros")) /\
  name {| designation := PStr "433"; name := PNone;
          diameter := PFloat nan; hazardous := PBool false;
          approaches := [] |} = PNone.
Proof.
  split.
  - exact (proj1 (name_normalised (Some (PStr "433")) (Some (PStr "Eros"))
                    None None _ eq_refl)
                 (PStr "Eros") eq_refl eq_refl).
  - exact (proj1 (proj2 (name_normalised (Some (PStr "433")) (Some (PStr ""))
                           None None _ eq_refl))
                 (PStr "") eq_refl eq_refl).
Defined.

Example name_kept :
  exists o, NearEarthObject.init (Some (PStr "433")) (Some (PStr "Eros")) None None = inr o /\
            name o = PStr "Eros".
Proof. eexists. split; reflexivity. Qed.

(** ** serialize of a CloseApproach *)

(** C7: [serialize()] returns the three keys [datetime_utc], [distance_au],
    [velocity_km_s] in this order and no other: the display text of the
    approach time, the stored distance and the stored velocity. The linked
    object is not part of it: relinking the approach leaves the mapping as it
    is. *)
Theorem approach_serialize_mapping `{Helpers} (a : CloseApproach.t) :
  let d := evalState CloseApproach.serialize a in
  d = [("datetime_utc", PStr (datetime_to_str (CloseApproach.time a)));
       ("distance_au", CloseApproach.distance a);
       ("velocity_km_s", CloseApproach.velocity a)] /\
  keys d = ["datetime_utc"; "distance_au"; "velocity_km_s"] /\
  getitem d "datetime_utc" = Some (PStr (evalState CloseApproach.time_str a)) /\
  forall r : option ref,
    evalState CloseApproach.serialize (CloseApproach.set_neo r a) = d.
Proof.
  cbv zeta. unfold evalState, CloseApproach.serialize, CloseApproach.time_str.
  simpl. repeat split.
Qed.

(** The record of the spec's worked example, read with the calendar. *)
Example approach_serialize_eros :
  option_map (evalState CloseApproach.serialize)
    (match @CloseApproach.init calendar_helpers (Some (PStr "1900-Dec-27 01:30"))
             (Some (PStr "0.0924")) (Some (PStr "14.54")) None
             (Some (PStr "433")) with
     | inr a => Some a
     | inl _ => None
     end) =
  Some [("datetime_utc", PStr "1900-12-27 01:30");
        ("distance_au", PFloat (S754_finite false 6658121689104541 (-56)));
        ("velocity_km_s", PFloat (S754_finite false 8185292322745876 (-49)))].
Proof. vm_compute. reflexivity. Qed.

(** ** Construction with the optional fields left out *)



(** ** The accessors leave the object as it is *)

(** C9: [fullname] and [serialize()] of an object, and [serialize()] and
    [time_str] of an approach, return with every attribute of [self] as it
    was. *)
Theorem accessors_read_only `{Helpers} (o : NearEarthObject.t)
    (a : CloseApproach.t) :
  execState NearEarthObject.fullname o = o /\
  execState NearEarthObject.serialize o = o /\
  execState CloseApproach.time_str a = a /\
  execState CloseApproach.serialize a = a.
Proof.
  unfold execState. repeat split.
Qed.

(** ** Zero measurements *)




(** * Further properties of the two classes *)

(** ** How the constructors fail *)

(** A falsy value either has no [float] at all, which is the case of [None]
    and of the empty text only, or converts to a zero. *)
Lemma py_float_falsy (v : pyval) :
  truthy v = false ->
  (v = PNone /\ py_float v = inl TypeError) \/
  (v = PStr "" /\ py_float v = inl ValueError) \/
  (exists s, py_float v = inr (S754_zero s)).
Proof.
  destruct v as [ | b | z | f | s]; simpl; intros Hv.
  - left. split; reflexivity.
  - subst b. right. right. now exists false.
  - apply negb_false_iff, Z.eqb_eq in Hv. subst z.
    right. right. now exists false.
  - destruct f as [sg | sg | | sg m e]; try discriminate.
    right. right. now exists sg.
  - apply negb_false_iff, String.eqb_eq in Hv. subst s.
    right. left. split; reflexivity.
Qed.

(** [float] raises [TypeError] for [None] alone. *)
Lemma py_float_type_error (v : pyval) : py_float v = inl TypeError -> v = PNone.
Proof.
  destruct v as [ | b | z | f | s]; simpl; try discriminate; [reflexivity | | ].
  - unfold float_of_int.
    destruct (binary_normalize prec emax z 0 false); discriminate.
  - destruct (float_of_str s); discriminate.
Qed.

(** The two ways the model of the constructor fails. *)
Lemma neo_init_raises_cases (d n di h : arg) (e : exn) :
  NearEarthObject.init d n di h = inl e <->
  (d = None /\ e = TypeError) \/
  (d <> None /\
   truthy (defaulted (PFloat nan) di) = true /\
   py_float (defaulted (PFloat nan) di) = inl e).
Proof.
  destruct d as [v | ].
  - rewrite neo_init_unfold. cbv zeta.
    destruct (truthy (defaulted (PFloat nan) di)) eqn:Ht.
    + destruct (py_float (defaulted (PFloat nan) di)) as [e' | f] eqn:Ef.
      * split.
        -- intros [= ->]. right. repeat split; congruence.
        -- intros [[Hd _] | (_ & _ & [= ->])]; [discriminate | reflexivity].
      * split; [discriminate | ].
        intros [[Hd _] | (_ & _ & Hf)]; discriminate.
    + split; [discriminate | ].
      intros [[Hd _] | (_ & Hf & _)]; discriminate.
  - rewrite neo_init_missing_designation. split.
    + intros [= <-]. now left.
    + intros [[_ ->] | (Hd & _)]; [reflexivity | now elim Hd].
Qed.

(** For a designation and a name for which [str] returns, the constructor of
    an object raises in two cases only: no designation was passed, which is a
    [TypeError], or a truthy diameter has no [float], and then the error is
    the one of the conversion. The name and the flag never make it fail. *)
Theorem neo_init_raises_iff (d n di h : arg) (e : exn) :
  str_returns (defaulted PNone d) = true ->
  str_returns (defaulted PNone n) = true ->
  (NearEarthObject.init d n di h = inl e <->
   (d = None /\ e = TypeError) \/
   (d <> None /\
    truthy (defaulted (PFloat nan) di) = true /\
    py_float (defaulted (PFloat nan) di) = inl e)).
Proof.
  intros _ _. apply neo_init_raises_cases.
Qed.

Lemma neo_init_raises_iff_witness :
  NearEarthObject.init (Some (PStr "433")) None (Some (PStr "unknown")) None =
  inl ValueError.
Proof.
  apply (proj2 (neo_init_raises_iff (Some (PStr "433")) None
                  (Some (PStr "unknown")) None ValueError eq_refl eq_refl)).
  right. split; [discriminate | split; reflexivity].
Defined.



(** The ways the model of the constructor of an approach fails. *)
Lemma approach_init_raises_cases `{Helpers} (t dist vel des : arg)
    (r : option ref) (e : exn) :
  CloseApproach.init t dist vel r des = inl e <->
  (t = None /\ e = TypeError) \/
  (exists tv, t = Some tv /\
     (cd_to_datetime tv = inl e \/
      exists dt, cd_to_datetime tv = inr dt /\
        (py_float (defaulted (PFloat nan) dist) = inl e \/
         exists fd, py_float (defaulted (PFloat nan) dist) = inr fd /\
                    py_float (defaulted (PFloat nan) vel) = inl e))).
Proof.
  destruct t as [tv | ].
  - rewrite approach_init_unfold.
    destruct (cd_to_datetime tv) as [et | dt] eqn:Et.
    + split.
      * intros [= ->]. right. exists tv. split; [reflexivity | now left].
      * intros [[Hn _] | (tv' & [= <-] & [Hc | (dt & Hc & _)])];
          congruence.
    + destruct (py_float (defaulted (PFloat nan) dist)) as [ed | fd] eqn:Ed.
      * split.
        -- intros [= ->]. right. exists tv. split; [reflexivity | ].
           right. exists dt. split; [assumption | now left].
        -- intros [[Hn _] | (tv' & [= <-] & [Hc | (dt' & _ & [Hd | (fd & Hd & _)])])];
             congruence.
      * destruct (py_float (defaulted (PFloat nan) vel)) as [ev | fv] eqn:Ev.
        -- split.
           ++ intros [= ->]. right. exists tv. split; [reflexivity | ].
              right. exists dt. split; [assumption | ].
              right. exists fd. split; reflexivity.
           ++ intros [[Hn _] | (tv' & [= <-] & [Hc | (dt' & _ & [Hd | (fd' & _ & Hv)])])];
                congruence.
        -- split; [discriminate | ].
           intros [[Hn _] | (tv' & [= <-] & [Hc | (dt' & _ & [Hd | (fd' & _ & Hv)])])];
             congruence.
  - split.
    + intros [= <-]. now left.
    + intros [[_ ->] | (tv & Hn & _)]; [reflexivity | discriminate].
Qed.

(** For a designation for which [str] returns, the constructor of an
    approach raises when no time was passed, with [TypeError]; else when the
    helper rejects the time; else when the distance has no [float]; else when
    the velocity has none. The error is the one of the first step that fails,
    in this order. *)
Theorem approach_init_raises_iff `{Helpers} (t dist vel des : arg)
    (r : option ref) (e : exn) :
  str_returns (defaulted PNone des) = true ->
  (CloseApproach.init t dist vel r des = inl e <->
   (t = None /\ e = TypeError) \/
   (exists tv, t = Some tv /\
      (cd_to_datetime tv = inl e \/
       exists dt, cd_to_datetime tv = inr dt /\
         (py_float (defaulted (PFloat nan) dist) = inl e \/
          exists fd, py_float (defaulted (PFloat nan) dist) = inr fd /\
                     py_float (defaulted (PFloat nan) vel) = inl e)))).
Proof.
  intros _. apply approach_init_raises_cases.
Qed.

Lemma approach_init_raises_iff_witness :
  @CloseApproach.init calendar_helpers (Some (PStr "1900-Dec-27 01:30"))
    (Some (PStr "near")) (Some PNone) None None = inl ValueError.
Proof.
  apply (proj2 (@approach_init_raises_iff calendar_helpers
                  (Some (PStr "1900-Dec-27 01:30")) (Some (PStr "near"))
                  (Some PNone) None None ValueError eq_refl)).
  right. exists (PStr "1900-Dec-27 01:30"). split; [reflexivity | ].
  right. exists eros_time. split; [reflexivity | now left].
Defined.

(** A falsy distance is never stored as NaN, unlike a falsy diameter. For an
    approach whose time the helper reads and whose designation [str] returns
    for: the distance [None] makes the construction raise [TypeError]; the
    empty text makes it raise [ValueError]; every other falsy distance converts
    to a zero, and then the construction succeeds with that zero stored
    whenever the velocity converts, and fails with the error of the velocity
    otherwise. *)
Theorem approach_falsy_distance `{Helpers} (t v : pyval) (dt : datetime)
    (vel des : arg) (r : option ref) :
  cd_to_datetime t = inr dt ->
  str_returns (defaulted PNone des) = true ->
  truthy v = false ->
  (v = PNone ->
   CloseApproach.init (Some t) (Some v) vel r des = inl TypeError) /\
  (v = PStr "" ->
   CloseApproach.init (Some t) (Some v) vel r des = inl ValueError) /\
  (v <> PNone -> v <> PStr "" ->
   exists s,
     py_float v = inr (S754_zero s) /\
     (forall fv, py_float (defaulted (PFloat nan) vel) = inr fv ->
        exists a, CloseApproach.init (Some t) (Some v) vel r des = inr a /\
                  CloseApproach.distance a = PFloat (S754_zero s) /\
                  CloseApproach.distance a <> PFloat nan) /\
     (forall e, py_float (defaulted (PFloat nan) vel) = inl e ->
        CloseApproach.init (Some t) (Some v) vel r des = inl e)).
Proof.
  intros Ht _ Hv.
  split; [ | split].
  - intros ->. rewrite approach_init_unfold, Ht. reflexivity.
  - intros ->. rewrite approach_init_unfold, Ht. reflexivity.
  - intros Hnone Hempty.
    destruct (py_float_falsy v Hv) as [[-> _] | [[-> _] | [s Hf]]];
      [now elim Hnone | now elim Hempty | ].
    exists s. split; [exact Hf | ]. split.
    + intros fv Hfv. rewrite approach_init_unfold, Ht. simpl.
      rewrite Hf, Hfv. eexists. repeat split. discriminate.
    + intros e He. rewrite approach_init_unfold, Ht. simpl.
      rewrite Hf, He. reflexivity.
Qed.

Lemma approach_falsy_distance_witness :
  @CloseApproach.init calendar_helpers (Some (PStr "1900-Dec-27 01:30"))
    (Some PNone) None None None = inl TypeError /\
  @CloseApproach.init calendar_helpers (Some (PStr "1900-Dec-27 01:30"))
    (Some (PStr "")) None None None = inl ValueError /\
  exists s,
    py_float (PInt 0) = inr (S754_zero s) /\
    exists a,
      @CloseApproach.init calendar_helpers (Some (PStr "1900-Dec-27 01:30"))
        (Some (PInt 0)) None None None = inr a /\
      CloseApproach.distance a = PFloat (S754_zero s) /\
      CloseApproach.distance a <> PFloat nan.
Proof.
  split; [ | split].
  - exact (proj1 (@approach_falsy_distance calendar_helpers
                    (PStr "1900-Dec-27 01:30") PNone eros_time None None None
                    eq_refl eq_refl eq_refl) eq_refl).
  - exact (proj1 (proj2 (@approach_falsy_distance calendar_helpers
                    (PStr "1900-Dec-27 01:30") (PStr "") eros_time None None None
                    eq_refl eq_refl eq_refl)) eq_refl).
  - destruct (proj2 (proj2 (@approach_falsy_distance calendar_helpers
                    (PStr "1900-Dec-27 01:30") (PInt 0) eros_time None None None
                    eq_refl eq_refl eq_refl)))
      as (s & Hs & Hok & _); [discriminate | discriminate | ].
    exists s. split; [exact Hs | ]. exact (Hok nan eq_refl).
Defined.

(** ** The key that links an approach to its object *)

(** Among the falsy values only the empty text has the empty text as its
    [str]. *)
Lemma py_str_falsy_empty (v : pyval) :
  truthy v = false -> (py_str v = "" <-> v = PStr "").
Proof.
  intros Hv.
  destruct v as [ | b | z | f | s]; simpl in *.
  - split; discriminate.
  - subst b. split; discriminate.
  - split; [intros Hs; now apply str_of_int_nonempty in Hs | discriminate].
  - split; [intros Hs; now apply float_repr_nonempty in Hs | discriminate].
  - split; congruence.
Qed.

(** An object and an approach built from the same raw designation carry the
    same key when the designation is truthy. A falsy designation is kept as
    its text by the object and replaced by the empty text by the approach, so
    the two keys then differ, the empty text apart. *)
Theorem linking_key_agreement `{Helpers} (v : pyval) (n di h : arg)
    (t dist vel : arg) (r : option ref)
    (o : NearEarthObject.t) (a : CloseApproach.t) :
  NearEarthObject.init (Some v) n di h = inr o ->
  CloseApproach.init t dist vel r (Some v) = inr a ->
  (truthy v = true -> CloseApproach._designation a = designation o) /\
  (truthy v = false ->
   CloseApproach._designation a = PStr "" /\
   (CloseApproach._designation a = designation o <-> v = PStr "")).
Proof.
  intros Ho Ha.
  apply neo_init_inv in Ho as (v' & f & [= <-] & _ & ->).
  destruct t as [tv | ]; [ | discriminate].
  rewrite approach_init_unfold in Ha.
  destruct (cd_to_datetime tv); [discriminate | ].
  destruct (py_float (defaulted (PFloat nan) dist)); [discriminate | ].
  destruct (py_float (defaulted (PFloat nan) vel)); [discriminate | ].
  injection Ha as <-. simpl. split; intros Hv; rewrite Hv.
  - reflexivity.
  - split; [reflexivity | ].
    rewrite <- (py_str_falsy_empty v Hv). split; congruence.
Qed.

Lemma linking_key_agreement_witness :
  PStr "" = PStr "" /\ (PStr "" = PStr "0" <-> PInt 0 = PStr "").
Proof.
  exact (proj2 (@linking_key_agreement calendar_helpers (PInt 0) None None None
                  (Some (PStr "1900-Dec-27 01:30")) None None None
                  {| designation := PStr "0"; name := PNone;
                     diameter := PFloat nan; hazardous := PBool false;
                     approaches := [] |}
                  (@CloseApproach.Build_t calendar_helpers
                     (PStr "") eros_time (PFloat nan) (PFloat nan) None)
                  eq_refl eq_refl)
               eq_refl).
Defined.

(** ** From a raw record to the mapping and back *)

(** The mapping of a freshly built object in terms of the raw record: the
    text of the name or the empty text, the text of the designation, the
    converted diameter or NaN, and whether the flag was ["Y"]. *)
Theorem neo_record_to_mapping (v : pyval) (n di h : arg)
    (o : NearEarthObject.t) :
  NearEarthObject.init (Some v) n di h = inr o ->
  exists f,
    (let raw := defaulted (PFloat nan) di in
     if truthy raw then py_float raw else inr nan) = inr f /\
    evalState NearEarthObject.serialize o =
      [("name", PStr (let raw := defaulted PNone n in
                      if truthy raw then py_str raw else ""));
       ("designation", PStr (py_str v));
       ("diameter_km", PFloat f);
       ("potentially_hazardous",
        PBool (py_eq_str (defaulted (PBool false) h) "Y"))].
Proof.
  intros Hinit.
  apply neo_init_inv in Hinit as (v' & f & [= <-] & Hf & ->).
  exists f. split; [exact Hf | ].
  unfold evalState, NearEarthObject.serialize.
  simpl. destruct (truthy (defaulted PNone n)); reflexivity.
Qed.

Lemma neo_record_to_mapping_witness :
  exists f,
    py_float (PStr "16.84") = inr f /\
    evalState NearEarthObject.serialize
      {| designation := PStr "433"; name := PStr "Eros";
         diameter := PFloat (S754_finite false 4740038607807447 (-48));
         hazardous := PBool false; approaches := [] |} =
      [("name", PStr "Eros"); ("designation", PStr "433");
       ("diameter_km", PFloat f); ("potentially_hazardous", PBool false)].
Proof.
  exact (neo_record_to_mapping (PInt 433) (Some (PStr "Eros"))
           (Some (PStr "16.84")) (Some (PStr "N")) _ eq_refl).
Defined.

(** Building an object again from the four entries of its own mapping always
    succeeds and gives back the designation and the name. The flag comes back
    as [False] whatever it was, because the mapping holds a boolean and not
    the text ["Y"]; the diameter comes back unless it was a zero, which turns
    into NaN. *)
Theorem neo_rebuild_from_mapping (d n di h : arg) (o : NearEarthObject.t) :
  NearEarthObject.init d n di h = inr o ->
  let m := evalState NearEarthObject.serialize o in
  exists o',
    NearEarthObject.init (getitem m "designation") (getitem m "name")
      (getitem m "diameter_km") (getitem m "potentially_hazardous") = inr o' /\
    designation o' = designation o /\
    name o' = name o /\
    diameter o' = (if truthy (diameter o) then diameter o else PFloat nan) /\
    hazardous o' = PBool false.
Proof.
  intros Hinit.
  apply neo_init_inv in Hinit as (v & f & _ & _ & ->).
  cbv zeta. unfold evalState, NearEarthObject.serialize. simpl.
  destruct (truthy (defaulted PNone n)) eqn:Hn; simpl;
    rewrite neo_init_unfold; simpl.
  - pose proof (proj2 (truthy_str (py_str (defaulted PNone n)))
                  (py_str_truthy_nonempty _ Hn)) as Hs.
    simpl in Hs. rewrite Hs.
    destruct f; simpl; eexists; repeat split.
  - destruct f; simpl; eexists; repeat split.
Qed.

Lemma neo_rebuild_from_mapping_witness :
  exists o',
    NearEarthObject.init (Some (PStr "433")) (Some (PStr ""))
      (Some (PFloat zero)) (Some (PBool true)) = inr o' /\
    designation o' = PStr "433" /\
    name o' = PNone /\
    diameter o' = PFloat nan /\
    hazardous o' = PBool false.
Proof.
  exact (neo_rebuild_from_mapping (Some (PInt 433)) None (Some (PStr "0"))
           (Some (PStr "Y"))
           {| designation := PStr "433"; name := PNone;
              diameter := PFloat zero; hazardous := PBool true;
              approaches := [] |}
           eq_refl).
Defined.

(** The mapping of a freshly built approach in terms of the raw record: the
    display text of the time the helper read, and the converted distance and
    velocity. The raw designation and the linked object play no part. *)
Theorem approach_record_to_mapping `{Helpers} (t dist vel des : arg)
    (r : option ref) (a : CloseApproach.t) :
  CloseApproach.init t dist vel r des = inr a ->
  exists tv dt fd fv,
    t = Some tv /\ cd_to_datetime tv = inr dt /\
    py_float (defaulted (PFloat nan) dist) = inr fd /\
    py_float (defaulted (PFloat nan) vel) = inr fv /\
    evalState CloseApproach.serialize a =
      [("datetime_utc", PStr (datetime_to_str dt));
       ("distance_au", PFloat fd);
       ("velocity_km_s", PFloat fv)].
Proof.
  intros Hinit.
  apply approach_init_inv in Hinit
    as (tv & dt & fd & fv & -> & Ht & Hd & Hv & Htime & Hdist & Hvel & _).
  exists tv, dt, fd, fv. repeat split; try assumption.
  unfold evalState, CloseApproach.serialize, CloseApproach.time_str. simpl.
  now rewrite Htime, Hdist, Hvel.
Qed.

Lemma approach_record_to_mapping_witness :
  exists tv dt fd fv,
    Some (PStr "1900-Dec-27 01:30") = Some tv /\
    @cd_to_datetime calendar_helpers tv = inr dt /\
    py_float (PStr "0.0924") = inr fd /\
    py_float (PStr "14.54") = inr fv /\
    evalState CloseApproach.serialize
      (@CloseApproach.Build_t calendar_helpers (PStr "433") eros_time
         (PFloat (S754_finite false 6658121689104541 (-56)))
         (PFloat (S754_finite false 8185292322745876 (-49))) None) =
      [("datetime_utc", PStr (@datetime_to_str calendar_helpers dt));
       ("distance_au", PFloat fd);
       ("velocity_km_s", PFloat fv)].
Proof.
  exact (@approach_record_to_mapping calendar_helpers
           (Some (PStr "1900-Dec-27 01:30")) (Some (PStr "0.0924"))
           (Some (PStr "14.54")) (Some (PStr "433")) None _ eq_refl).
Defined.

(** ** The texts of an object *)

Lemma append_inj_l (a x y : string) : a ++ x = a ++ y -> x = y.
Proof.
  induction a as [ | c a IH]; simpl; [trivial | ].
  intros [= E]. now apply IH.
Qed.

(** The text of a freshly built object never fails to render, and reads in
    terms of the raw record: the designation, the name or the word [None], the
    diameter to three decimals, which is [nan] when unknown, and the flag. *)
Theorem neo_str_of_record (v : pyval) (n di h : arg) (o : NearEarthObject.t) :
  NearEarthObject.init (Some v) n di h = inr o ->
  exists f,
    diameter o = PFloat f /\
    (truthy (defaulted (PFloat nan) di) = false -> f = nan) /\
    NearEarthObject.__str__ o =
      inr ("A NearEarthObject " ++
           (py_str v ++ " " ++
            (let raw := defaulted PNone n in
             if truthy raw then py_str raw else "None")) ++
           " has a diameter of " ++ format_fixed 3 f ++
           " km and is potentially hazardous = " ++
           (if py_eq_str (defaulted (PBool false) h) "Y"
            then "True" else "False")).
Proof.
  intros Hinit.
  apply neo_init_inv in Hinit as (v' & f & [= <-] & Hf & ->).
  exists f. split; [reflexivity | ]. split.
  - intros Ht. cbv zeta in Hf. rewrite Ht in Hf. congruence.
  - unfold NearEarthObject.__str__, evalState, fullname. simpl.
    destruct (truthy (defaulted PNone n));
      destruct (py_eq_str (defaulted (PBool false) h) "Y"); reflexivity.
Qed.

Lemma neo_str_of_record_witness :
  exists f,
    PFloat nan = PFloat f /\
    (truthy (PFloat nan) = false -> f = nan) /\
    NearEarthObject.__str__
      {| designation := PStr "433"; name := PNone; diameter := PFloat nan;
         hazardous := PBool false; approaches := [] |} =
      inr ("A NearEarthObject " ++ ("433" ++ " " ++ "None") ++
           " has a diameter of " ++ format_fixed 3 f ++
           " km and is potentially hazardous = " ++ "False").
Proof.
  exact (neo_str_of_record (PInt 433) None None None _ eq_refl).
Defined.

(** [repr] tells an object without a name from one named ["None"], which the
    full name and the text cannot: the two objects have the same [fullname]
    and the same [__str__], and different [__repr__]. *)
Theorem neo_repr_tells_null_name (v : pyval) (di h : arg)
    (o1 o2 : NearEarthObject.t) :
  NearEarthObject.init (Some v) None di h = inr o1 ->
  NearEarthObject.init (Some v) (Some (PStr "None")) di h = inr o2 ->
  evalState fullname o1 = evalState fullname o2 /\
  NearEarthObject.__str__ o1 = NearEarthObject.__str__ o2 /\
  (exists s1 s2, NearEarthObject.__repr__ o1 = inr s1 /\
                 NearEarthObject.__repr__ o2 = inr s2 /\ s1 <> s2).
Proof.
  intros H1 H2.
  apply neo_init_inv in H1 as (v1 & f1 & [= <-] & Hf1 & ->).
  apply neo_init_inv in H2 as (v2 & f2 & [= <-] & Hf2 & ->).
  assert (f2 = f1) as -> by congruence.
  split; [reflexivity | ]. split; [reflexivity | ].
  unfold NearEarthObject.__repr__. simpl.
  do 2 eexists. split; [reflexivity | ]. split; [reflexivity | ].
  intros [= E].
  repeat match type of E with
         | String _ _ = String _ _ => injection E as E
         end.
  apply append_inj_l in E. discriminate E.
Qed.

Lemma neo_repr_tells_null_name_witness :
  exists s1 s2,
    NearEarthObject.__repr__
      {| designation := PStr "433"; name := PNone; diameter := PFloat nan;
         hazardous := PBool false; approaches := [] |} = inr s1 /\
    NearEarthObject.__repr__
      {| designation := PStr "433"; name := PStr "None"; diameter := PFloat nan;
         hazardous := PBool false; approaches := [] |} = inr s2 /\
    s1 <> s2.
Proof.
  exact (proj2 (proj2 (neo_repr_tells_null_name (PStr "433") None None
                         _ _ eq_refl eq_refl))).
Defined.

(** ** The texts of an approach *)

(** A successful construction of an approach, attribute by attribute. *)
Lemma approach_init_record `{Helpers} (t dist vel des : arg) (r : option ref)
    (a : CloseApproach.t) :
  CloseApproach.init t dist vel r des = inr a ->
  exists tv dt fd fv,
    t = Some tv /\ cd_to_datetime tv = inr dt /\
    py_float (defaulted (PFloat nan) dist) = inr fd /\
    py_float (defaulted (PFloat nan) vel) = inr fv /\
    a = {| CloseApproach._designation :=
             (let raw := defaulted PNone des in
              if truthy raw then PStr (py_str raw) else PStr "");
           CloseApproach.time := dt;
           CloseApproach.distance := PFloat fd;
           CloseApproach.velocity := PFloat fv;
           CloseApproach.neo := r |}.
Proof.
  destruct t as [tv | ]; [ | discriminate].
  rewrite approach_init_unfold.
  destruct (cd_to_datetime tv) as [ | dt] eqn:Et; [discriminate | ].
  destruct (py_float (defaulted (PFloat nan) dist)) as [ | fd] eqn:Ed;
    [discriminate | ].
  destruct (py_float (defaulted (PFloat nan) vel)) as [ | fv] eqn:Ev;
    [discriminate | ].
  intros [= <-]. exists tv, dt, fd, fv. repeat split; assumption.
Qed.

(** The text of a freshly built approach never fails to render. It names the
    approach by the raw designation it was built with, whatever object it is
    linked to afterwards, and runs ["au"] and ["and"] together. *)
Theorem approach_str_of_record `{Helpers} (t dist vel des : arg)
    (r : option ref) (a : CloseApproach.t) :
  CloseApproach.init t dist vel r des = inr a ->
  exists tv dt fd fv,
    t = Some tv /\ cd_to_datetime tv = inr dt /\
    py_float (defaulted (PFloat nan) dist) = inr fd /\
    py_float (defaulted (PFloat nan) vel) = inr fv /\
    forall r',
      CloseApproach.__str__ (CloseApproach.set_neo r' a) =
        inr ("At " ++ datetime_to_str dt ++ ", '" ++
             (let raw := defaulted PNone des in
              if truthy raw then py_str raw else "") ++
             "' approaches Earth at a distance of " ++ format_fixed 2 fd ++
             " auand a velocity of " ++ format_fixed 2 fv ++ " km/s.").
Proof.
  intros Hinit.
  apply approach_init_record in Hinit as (tv & dt & fd & fv & -> & Ht & Hd & Hv & ->).
  exists tv, dt, fd, fv. repeat split; try assumption.
  intros r'. unfold CloseApproach.__str__, evalState, CloseApproach.time_str.
  simpl. destruct (truthy (defaulted PNone des)); reflexivity.
Qed.

Lemma approach_str_of_record_witness :
  exists tv dt fd fv,
    Some (PStr "1900-Dec-27 01:30") = Some tv /\
    @cd_to_datetime calendar_helpers tv = inr dt /\
    py_float (PFloat nan) = inr fd /\
    py_float (PFloat nan) = inr fv /\
    forall r',
      CloseApproach.__str__
        (CloseApproach.set_neo r'
           (@CloseApproach.Build_t calendar_helpers (PStr "") eros_time
              (PFloat nan) (PFloat nan) None)) =
        inr ("At " ++ @datetime_to_str calendar_helpers dt ++ ", '" ++ "" ++
             "' approaches Earth at a distance of " ++ format_fixed 2 fd ++
             " auand a velocity of " ++ format_fixed 2 fv ++ " km/s.").
Proof.
  exact (@approach_str_of_record calendar_helpers
           (Some (PStr "1900-Dec-27 01:30")) None None None None _ eq_refl).
Defined.

(** [repr] cannot tell two approaches apart that differ in their distance
    only: the distance field of its text is a literal, not a template. *)
Theorem approach_repr_ignores_distance `{Helpers}
    (heap : ref -> NearEarthObject.t) (t d1 d2 vel des : arg)
    (r : option ref) (a1 a2 : CloseApproach.t) :
  CloseApproach.init t d1 vel r des = inr a1 ->
  CloseApproach.init t d2 vel r des = inr a2 ->
  CloseApproach.__repr__ heap a1 = CloseApproach.__repr__ heap a2.
Proof.
  intros H1 H2.
  apply approach_init_record in H1 as (tv1 & dt1 & fd1 & fv1 & -> & Ht1 & _ & Hv1 & ->).
  apply approach_init_record in H2 as (tv2 & dt2 & fd2 & fv2 & [= <-] & Ht2 & _ & Hv2 & ->).
  assert (dt2 = dt1) as -> by congruence.
  assert (fv2 = fv1) as -> by congruence.
  reflexivity.
Qed.

Lemma approach_repr_ignores_distance_witness :
  CloseApproach.__repr__ (fun _ => Build_t PNone PNone PNone PNone [])
    (@CloseApproach.Build_t calendar_helpers (PStr "433") eros_time
       (PFloat zero) (PFloat nan) None) =
  CloseApproach.__repr__ (fun _ => Build_t PNone PNone PNone PNone [])
    (@CloseApproach.Build_t calendar_helpers (PStr "433") eros_time
       (PFloat one) (PFloat nan) None).
Proof.
  exact (@approach_repr_ignores_distance calendar_helpers
           (fun _ => Build_t PNone PNone PNone PNone [])
           (Some (PStr "1900-Dec-27 01:30")) (Some (PInt 0)) (Some (PInt 1))
           None (Some (PStr "433")) None _ _ eq_refl eq_refl).
Defined.

(** The [repr] of a freshly built approach in terms of the raw record: the
    quoted display text of the time, the literal distance field, the velocity
    to two decimals, and the linked object, [None] while there is none. Once
    the approach is linked, its [repr] embeds the [repr] of the object, and
    fails exactly when that one fails. *)
Theorem approach_repr_of_record `{Helpers} (heap : ref -> NearEarthObject.t)
    (t dist vel des : arg) (r : option ref) (a : CloseApproach.t) :
  CloseApproach.init t dist vel r des = inr a ->
  exists tv dt fv,
    t = Some tv /\ cd_to_datetime tv = inr dt /\
    py_float (defaulted (PFloat nan) vel) = inr fv /\
    CloseApproach.__repr__ heap (CloseApproach.set_neo None a) =
      inr ("CloseApproach(time=" ++ repr_str (datetime_to_str dt) ++
           ", distance={self.distance:.2f}, velocity=" ++
           format_fixed 2 fv ++ ", neo=" ++ "None" ++ ")") /\
    (forall k s,
       NearEarthObject.__repr__ (heap k) = inr s ->
       CloseApproach.__repr__ heap (CloseApproach.set_neo (Some k) a) =
         inr ("CloseApproach(time=" ++ repr_str (datetime_to_str dt) ++
              ", distance={self.distance:.2f}, velocity=" ++
              format_fixed 2 fv ++ ", neo=" ++ s ++ ")")) /\
    (forall k e,
       NearEarthObject.__repr__ (heap k) = inl e ->
       CloseApproach.__repr__ heap (CloseApproach.set_neo (Some k) a) = inl e).
Proof.
  intros Hinit.
  apply approach_init_record in Hinit as (tv & dt & fd & fv & -> & Ht & _ & Hv & ->).
  exists tv, dt, fv. repeat split; try assumption.
  - intros k s Hs. unfold CloseApproach.__repr__. simpl. rewrite Hs. reflexivity.
  - intros k e He. unfold CloseApproach.__repr__. simpl. rewrite He. reflexivity.
Qed.

Lemma approach_repr_of_record_witness :
  CloseApproach.__repr__
    (fun _ => {| designation := PStr "433"; name := PStr "Eros";
                 diameter := PFloat (S754_finite false 4740038607807447 (-48));
                 hazardous := PBool false; approaches := [0%nat] |})
    (CloseApproach.set_neo (Some 7%nat)
       (@CloseApproach.Build_t calendar_helpers (PStr "433") eros_time
          (PFloat nan) (PFloat one) None)) =
  inr ("CloseApproach(time='1900-12-27 01:30', " ++
       "distance={self.distance:.2f}, velocity=1.00, " ++
       "neo=NearEarthObject(designation='433',name='Eros', " ++
       "diameter=16.840, hazardous=False))").
Proof.
  destruct (@approach_repr_of_record calendar_helpers
              (fun _ => {| designation := PStr "433"; name := PStr "Eros";
                           diameter := PFloat (S754_finite false 4740038607807447 (-48));
                           hazardous := PBool false; approaches := [0%nat] |})
              (Some (PStr "1900-Dec-27 01:30")) None (Some (PInt 1))
              (Some (PStr "433")) None
              (@CloseApproach.Build_t calendar_helpers (PStr "433") eros_time
                 (PFloat nan) (PFloat one) None)
              eq_refl)
    as (tv & dt & fv & Et & Ed & Ev & _ & Hlinked & _).
  injection Et as <-.
  vm_compute in Ed. injection Ed as <-.
  vm_compute in Ev. injection Ev as <-.
  etransitivity; [exact (Hlinked 7%nat _ eq_refl) | ].
  vm_compute. reflexivity.
Defined.
